(** * Workout-test: the data-access layer of [crud.py] over the [User] table

    The four functions of [crud.py] are embedded as programs of a small
    state-and-exception monad.  The state holds what the Python process and
    the SQLite file hold while one of them runs: the committed rows of table
    [user], the [User] instances allocated so far, and the bookkeeping of the
    open [Session] (its transaction, identity map, pending, dirty and deleted
    instances).  The ORM calls the functions make ([Session.add], [get],
    [delete], [commit], [refresh], [exec], [Result.one]) are embedded with the
    behaviour SQLAlchemy documents for them, including what they raise on
    [None].

    [crud.py] annotates [update_user] with [Optional[str]] but does not import
    [Optional]; the annotation is read as [typing.Optional], a string or
    [None]. *)

From stdpp Require Import gmap strings list fin_maps.

#[local] Set Warnings "-clear-no-such-hyp".
Local Open Scope Z_scope.

(** ** models.py *)

(** [class User(SQLModel, table=True)]: [id: Optional[int]], [username: str],
    [email: str]. *)
Record User := mkUser {
  id : option Z;
  username : string;
  email : string
}.

Global Instance User_inhabited : Inhabited User :=
  populate (mkUser None "" "").

Global Instance User_eq_dec : EqDecision User.
Proof. solve_decision. Defined.

(** A row of table [user] without its primary key; the table maps the primary
    key to the rest of the row, so that the key is unique by construction as a
    PRIMARY KEY column is. *)
Record Row := mkRow {
  row_username : string;
  row_email : string
}.

Global Instance Row_eq_dec : EqDecision Row.
Proof. solve_decision. Defined.

Abbreviation Table := (gmap Z Row).

Definition row_of (u : User) : Row := mkRow (username u) (email u).
Definition user_of (k : Z) (r : Row) : User :=
  mkUser (Some k) (row_username r) (row_email r).

(** The integers SQLite stores and the sqlite3 driver binds: signed 64-bit.
    [INT64_MAX] is the largest rowid. *)
Definition INT64_MAX : Z := 9223372036854775807.

Definition int64 (k : Z) : Prop := - INT64_MAX - 1 ≤ k ≤ INT64_MAX.

(** SQLite's choice of a rowid for an INSERT that gives none: 1 in an empty
    table, otherwise one more than the largest rowid in use.  This is the
    choice while the largest rowid in use is below [INT64_MAX]; once it is
    reached SQLite tries unused rowids at random, which is not modelled: a
    theorem that says which rowid is assigned takes [next_rowid] to be at
    most [INT64_MAX]. *)
Definition max_rowid (t : Table) : option Z :=
  map_fold (λ k _ acc, Some (from_option (Z.max k) k acc)) None t.

Definition next_rowid (t : Table) : Z :=
  from_option Z.succ 1 (max_rowid t).

(** ** Exceptions and the program monad *)

Inductive exn :=
  | NoResultFound          (* sqlalchemy.exc: Result.one() on zero rows *)
  | MultipleResultsFound   (* sqlalchemy.exc: Result.one() on several rows *)
  | AttributeError         (* builtin: attribute assignment on None *)
  | UnmappedInstanceError  (* sqlalchemy.orm.exc: add/delete/refresh of None *)
  | InvalidRequestError    (* sqlalchemy.exc: instance not persistent in the session *)
  | IntegrityError.        (* sqlalchemy.exc: primary key already present *)

Global Instance exn_eq_dec : EqDecision exn.
Proof. solve_decision. Defined.

Inductive result (A : Type) :=
  | Ok (a : A)
  | Raise (e : exn).
Arguments Ok {A} a.
Arguments Raise {A} e.

(** A reference to a [User] instance: its index in the heap. *)
Definition ref := nat.

Definition mem (l : ref) (ls : list ref) : bool := existsb (Nat.eqb l) ls.

(** The bookkeeping of one [Session]. *)
Record Session := mkSession {
  txn : Table;            (* table as the session's transaction sees it *)
  identity : list ref;    (* persistent instances (the identity map) *)
  new : list ref;         (* session.new: pending instances *)
  dirty : list ref;       (* persistent instances with an attribute set *)
  deleted : list ref      (* session.deleted *)
}.

Record World := mkWorld {
  engine : Table;         (* committed rows of table user *)
  heap : list User;       (* the instances allocated so far *)
  session : Session;      (* the session of the running with-block *)
  commits : nat           (* COMMITs issued so far *)
}.

Definition M (A : Type) : Type := World → result A * World.

Global Instance M_ret : MRet M := λ A a w, (Ok a, w).
Global Instance M_bind : MBind M := λ A B f m w,
  match m w with
  | (Ok a, w') => f a w'
  | (Raise e, w') => (Raise e, w')
  end.

Definition raise {A} (e : exn) : M A := λ w, (Raise e, w).
Definition gets {A} (f : World → A) : M A := λ w, (Ok (f w), w).
Definition modify (f : World → World) : M unit := λ w, (Ok (), f w).

(** [try ... finally]: [h] runs on both exits of [m], the exception of [m]
    is re-raised after it. *)
Definition finally {A} (m : M A) (h : M unit) : M A := λ w,
  match m w with
  | (Ok a, w') =>
      match h w' with
      | (Ok _, w'') => (Ok a, w'')
      | (Raise e, w'') => (Raise e, w'')
      end
  | (Raise e, w') =>
      match h w' with
      | (Ok _, w'') => (Raise e, w'')
      | (Raise e', w'') => (Raise e', w'')
      end
  end.

(** Field updates. *)
Definition with_engine (t : Table) (w : World) : World :=
  mkWorld t (heap w) (session w) (commits w).
Definition with_heap (h : list User) (w : World) : World :=
  mkWorld (engine w) h (session w) (commits w).
Definition with_session (s : Session) (w : World) : World :=
  mkWorld (engine w) (heap w) s (commits w).
Definition with_commits (n : nat) (w : World) : World :=
  mkWorld (engine w) (heap w) (session w) n.

Definition with_txn (t : Table) (s : Session) : Session :=
  mkSession t (identity s) (new s) (dirty s) (deleted s).
Definition with_identity (l : list ref) (s : Session) : Session :=
  mkSession (txn s) l (new s) (dirty s) (deleted s).
Definition with_new (l : list ref) (s : Session) : Session :=
  mkSession (txn s) (identity s) l (dirty s) (deleted s).
Definition with_dirty (l : list ref) (s : Session) : Session :=
  mkSession (txn s) (identity s) (new s) l (deleted s).
Definition with_deleted (l : list ref) (s : Session) : Session :=
  mkSession (txn s) (identity s) (new s) (dirty s) l.

Definition on_session (f : Session → Session) : M unit :=
  modify (λ w, with_session (f (session w)) w).
Definition in_session {A} (f : Session → A) : M A :=
  gets (λ w, f (session w)).

(** ** The ORM calls used by crud.py *)

(** Instances on the heap. *)
Definition alloc (u : User) : M ref :=
  l ← gets (λ w, length (heap w));
  modify (λ w, with_heap (heap w ++ [u]) w);;
  mret l.

Definition deref (l : ref) : M User := gets (λ w, heap w !!! l).

Definition store (l : ref) (u : User) : M unit :=
  modify (λ w, with_heap (<[l:=u]> (heap w)) w).

(** [User(username=..., email=...)]: a transient instance, [id] is [None]. *)
Definition new_User (username email : string) : M ref :=
  alloc (mkUser None username email).

(** [Session(engine)]: a fresh session, its transaction starts from the
    committed table. *)
Definition Session_open : M unit :=
  modify (λ w, with_session (mkSession (engine w) [] [] [] []) w).

(** [Session.close()], run by the with-block on both exits: what was not
    committed is rolled back and every instance is detached. *)
Definition Session_close : M unit :=
  modify (λ w, with_session (mkSession (engine w) [] [] [] []) w).

(** [with Session(engine) as session: body]. *)
Definition with_Session {A} (body : M A) : M A :=
  Session_open;; finally body Session_close.

(** [session.add(instance)]. *)
Definition session_add (o : option ref) : M unit :=
  match o with
  | None => raise UnmappedInstanceError
  | Some l =>
      known ← in_session (λ s, mem l (identity s ++ new s));
      if known : bool then mret ()
      else on_session (λ s, with_new (new s ++ [l]) s)
  end.

(** [session.get(User, key)]: the instance of that primary key, or [None].
    This is the call for a [key] that is [int64]; for any other integer the
    sqlite3 driver raises OverflowError before the lookup, which is not
    modelled. *)
Definition session_get (key : Z) : M (option ref) :=
  row ← in_session (λ s, txn s !! key);
  match row with
  | None => mret None
  | Some r =>
      l ← alloc (user_of key r);
      on_session (λ s, with_identity (identity s ++ [l]) s);;
      mret (Some l)
  end.

(** [instance.username = value] and [instance.email = value]. *)
Definition mark_dirty (l : ref) : M unit :=
  on_session (λ s,
    if mem l (identity s) && negb (mem l (dirty s))
    then with_dirty (dirty s ++ [l]) s else s).

Definition set_username (o : option ref) (value : string) : M unit :=
  match o with
  | None => raise AttributeError
  | Some l =>
      u ← deref l;
      store l (mkUser (id u) value (email u));;
      mark_dirty l
  end.

Definition set_email (o : option ref) (value : string) : M unit :=
  match o with
  | None => raise AttributeError
  | Some l =>
      u ← deref l;
      store l (mkUser (id u) (username u) value);;
      mark_dirty l
  end.

(** [session.delete(instance)]. *)
Definition session_delete (o : option ref) : M unit :=
  match o with
  | None => raise UnmappedInstanceError
  | Some l =>
      persistent ← in_session (λ s, mem l (identity s));
      if persistent : bool
      then on_session (λ s, with_deleted (deleted s ++ [l]) s)
      else raise InvalidRequestError
  end.

(** The flush: INSERT the pending instances, UPDATE the dirty ones, DELETE
    the deleted ones. *)
Definition flush_insert (l : ref) : M unit :=
  u ← deref l;
  t ← in_session txn;
  let k := default (next_rowid t) (id u) in
  match t !! k with
  | Some _ => raise IntegrityError
  | None =>
      on_session (λ s,
        with_identity (identity s ++ [l]) (with_txn (<[k:=row_of u]> t) s));;
      store l (mkUser (Some k) (username u) (email u))
  end.

Definition flush_update (l : ref) : M unit :=
  u ← deref l;
  match id u with
  | None => mret ()
  | Some k =>
      on_session (λ s,
        with_txn (alter (λ _, row_of u) k (txn s)) s)
  end.

Definition flush_delete (l : ref) : M unit :=
  u ← deref l;
  match id u with
  | None => mret ()
  | Some k =>
      on_session (λ s,
        with_identity (List.filter (λ l', negb (l' =? l)%nat) (identity s))
          (with_txn (delete k (txn s)) s))
  end.

Fixpoint for_each {A} (f : A → M unit) (xs : list A) : M unit :=
  match xs with
  | [] => mret ()
  | x :: xs' => f x;; for_each f xs'
  end.

Definition flush : M unit :=
  pending ← in_session new;
  for_each flush_insert pending;;
  modified ← in_session dirty;
  for_each flush_update modified;;
  removed ← in_session deleted;
  for_each flush_delete removed;;
  on_session (λ s, with_new [] (with_dirty [] (with_deleted [] s))).

(** [session.commit()]: flush, then COMMIT: the transaction's table becomes
    the committed one.  (A commit also expires the attributes loaded on the
    instances; [create_user] and [update_user] refresh the instance before it
    is read again and [delete_user] never reads it, so expiry is left out.) *)
Definition session_commit : M unit :=
  flush;;
  modify (λ w, with_commits (S (commits w)) (with_engine (txn (session w)) w)).

(** [session.refresh(instance)]: reload the attributes from the row of the
    instance's primary key. *)
Definition session_refresh (o : option ref) : M unit :=
  match o with
  | None => raise UnmappedInstanceError
  | Some l =>
      persistent ← in_session (λ s, mem l (identity s));
      u ← deref l;
      match persistent, id u with
      | true, Some k =>
          row ← in_session (λ s, txn s !! k);
          match row with
          | Some r => store l (user_of k r)
          | None => raise InvalidRequestError
          end
      | _, _ => raise InvalidRequestError
      end
  end.

(** [session.exec(select(User).where(User.id == key))]: the instances of the
    matching rows.  This is the call for a [key] that is [int64]; for any
    other integer the sqlite3 driver raises OverflowError before the lookup,
    which is not modelled. *)
Definition session_exec_select_where_id (key : Z) : M (list ref) :=
  row ← in_session (λ s, txn s !! key);
  match row with
  | None => mret []
  | Some r =>
      l ← alloc (user_of key r);
      on_session (λ s, with_identity (identity s ++ [l]) s);;
      mret [l]
  end.

(** [Result.one()]. *)
Definition one {A} (rows : list A) : M A :=
  match rows with
  | [] => raise NoResultFound
  | [x] => mret x
  | _ => raise MultipleResultsFound
  end.

(** Python truthiness of an [Optional[str]]: [None] and the empty string are
    falsy. *)
Definition truthy (v : option string) : bool :=
  match v with
  | None | Some "" => false
  | Some _ => true
  end.

(** [if value: body], where the body uses the string [value]. *)
Definition if_truthy (value : option string) (body : string → M unit) : M unit :=
  match value with
  | Some s => if truthy value then body s else mret ()
  | None => mret ()
  end.

(** What a caller holds after [return user]: the attributes of the instance,
    or [None]. *)
Definition return_ (o : option ref) : M (option User) :=
  match o with
  | None => mret None
  | Some l => u ← deref l; mret (Some u)
  end.

(** ** crud.py *)

Definition create_user (username email : string) : M User :=
  user ← new_User username email;
  with_Session (
    session_add (Some user);;
    session_commit;;
    session_refresh (Some user));;
  deref user.

Definition get_user (user_id : Z) : M User :=
  with_Session (
    result ← session_exec_select_where_id user_id;
    user ← one result;
    deref user).

Definition update_user (user_id : Z) (username email : option string)
  : M (option User) :=
  user ← with_Session (
    user ← session_get user_id;
    if_truthy username (λ username, set_username user username);;
    if_truthy email (λ email, set_email user email);;
    session_add user;;
    session_commit;;
    session_refresh user;;
    mret user);
  return_ user.

Definition delete_user (user_id : Z) : M unit :=
  with_Session (
    user ← session_get user_id;
    session_delete user;;
    session_commit).

(** ** The process around crud.py *)

(** The process right after start over the table [db] of the database file:
    no instance allocated, no session used, nothing committed yet. *)
Definition boot (db : Table) : World :=
  mkWorld db [] (mkSession db [] [] [] []) 0%nat.

(** The session a with-block leaves behind over the committed table [db]. *)
Definition closed (db : Table) : Session := mkSession db [] [] [] [].

(** A call of the data-access layer, as the routes of app.py make them. *)
Inductive request :=
  | Create (username email : string)
  | Read (user_id : Z)
  | Update (user_id : Z) (username email : option string)
  | Delete (user_id : Z).

(** One call: the identifier [create_user] handed out, if any, and the state
    the process is left in.  An exception ends the call, not the process. *)
Definition serve (rq : request) (w : World) : option Z * World :=
  match rq with
  | Create username email =>
      match create_user username email w with
      | (Ok user, w') => (id user, w')
      | (Raise _, w') => (None, w')
      end
  | Read user_id => (None, (get_user user_id w).2)
  | Update user_id username email =>
      (None, (update_user user_id username email w).2)
  | Delete user_id => (None, (delete_user user_id w).2)
  end.

(** A sequence of calls: every identifier [create_user] returned, and the
    final state. *)
Fixpoint serve_all (rqs : list request) (w : World) : list Z * World :=
  match rqs with
  | [] => ([], w)
  | rq :: rqs' =>
      let '(i, w') := serve rq w in
      let '(ids, w'') := serve_all rqs' w' in
      (option_list i ++ ids, w'')
  end.

(** The table of the spec's scenario after its create, and a sequence of
    calls in which the identifier 1 is handed out, deleted and handed out
    again. *)
Definition alice_db : Table := {[ 1 := mkRow "alice" "a@x.com" ]}.

Definition reuse_calls : list request :=
  [Create "alice" "a@x.com"; Update 1 None (Some "a2@x.com");
   Delete 1; Create "bob" "b@x.com"].

(** ** Outcomes of [update_user] *)

(** The value [update_user] leaves in a field ([if value: user.field =
    value]): the replacement when it is truthy, the old value otherwise. *)
Definition merge (old : string) (replacement : option string) : string :=
  if truthy replacement then default old replacement else old.

(** The exception [update_user] ends with when [session.get] gave [None]:
    the first attribute assignment that runs raises, and when none runs
    [session.add(None)] does. *)
Definition update_user_None_exn (username email : option string) : exn :=
  if truthy username || truthy email then AttributeError
  else UnmappedInstanceError.

(** Which calls hand out an identifier and which remove one. *)
Definition is_Create (rq : request) : bool :=
  match rq with Create _ _ => true | _ => false end.

Definition is_Delete (rq : request) : bool :=
  match rq with Delete _ => true | _ => false end.

(** ** app.py *)

Module app.

(** What a view function reads from Flask's [request]: the method, and the
    form fields in the order they were sent (a field may be sent twice). *)
Inductive Method := GET | HEAD | POST.

Record Request := mkRequest {
  method : Method;
  form : list (string * string)
}.

(** What a view function ends with when it does not return: nothing in
    app.py catches, so an exception of crud.py leaves the view as it is. *)
Inductive error :=
  | CrudError (e : exn)
  | BadRequestKeyError (key : string)   (* werkzeug: request.form[key], no such field *)
  | NameError (name : string).          (* builtin: the name is bound nowhere *)

Inductive outcome (A : Type) :=
  | Returns (a : A)
  | Raises (e : error).
Arguments Returns {A} a.
Arguments Raises {A} e.

(** The two kinds of response the views build: [redirect(location)], and
    [render_template(template, user=user)] as the call with its arguments
    (the template files are not among the sources). *)
Inductive Response :=
  | redirect (location : string)
  | render_template (template : string) (user : User).

Definition V (A : Type) : Type := World → outcome A * World.

Global Instance V_ret : MRet V := λ A a w, (Returns a, w).
Global Instance V_bind : MBind V := λ A B f m w,
  match m w with
  | (Returns a, w') => f a w'
  | (Raises e, w') => (Raises e, w')
  end.

(** A call of a function of crud.py from a view. *)
Definition crud {A} (m : M A) : V A := λ w,
  match m w with
  | (Ok a, w') => (Returns a, w')
  | (Raise e, w') => (Raises (CrudError e), w')
  end.

(** [request.form[key]]: the first value sent for the field. *)
Fixpoint getitem (fields : list (string * string)) (key : string)
  : option string :=
  match fields with
  | [] => None
  | (k, v) :: fields' => if String.eqb k key then Some v else getitem fields' key
  end.

Definition form_getitem (request : Request) (key : string) : V string := λ w,
  match getitem (form request) key with
  | Some v => (Returns v, w)
  | None => (Raises (BadRequestKeyError key), w)
  end.

(** A name that neither app.py nor the builtins bind. *)
Definition unbound {A} (name : string) : V A := λ w, (Raises (NameError name), w).

(** [url_for('users')]: the rule of the view [users]. *)
Definition url_for_users : string := "/users".

(** [@app.route('/users', methods=['GET', 'POST'])]; Flask also hands HEAD
    requests to a view that takes GET.  The branch for the methods other
    than POST starts with [Session(engine)], and app.py imports neither
    [Session] nor [select]: the name is looked up when the branch runs, which
    ends there, before anything is read. *)
Definition users (request : Request) : V Response :=
  match method request with
  | POST =>
      username ← form_getitem request "username";
      email ← form_getitem request "email";
      crud (create_user username email);;
      mret (redirect url_for_users)
  | _ => unbound "Session"
  end.

(** [@app.route('/user/<int:user_id>', methods=['GET', 'POST'])]. *)
Definition user (user_id : Z) (request : Request) : V Response :=
  match method request with
  | POST =>
      username ← form_getitem request "username";
      email ← form_getitem request "email";
      crud (update_user user_id (Some username) (Some email));;
      mret (redirect url_for_users)
  | _ =>
      user ← crud (get_user user_id);
      mret (render_template "user.html" user)
  end.

(** [@app.route('/delete_user/<int:user_id>', methods=['POST'])]. *)
Definition delete_user_route (user_id : Z) : V Response :=
  crud (delete_user user_id);;
  mret (redirect url_for_users).

(** The forms of the spec's scenario. *)
Definition alice_form : list (string * string) :=
  [("username", "alice"); ("email", "a@x.com")].

Definition blank_form : list (string * string) :=
  [("username", ""); ("email", "")].

End app.

(** * Properties *)

(** ** The rowid SQLite assigns is not in use *)

Lemma max_rowid_bound (t : Table) (k : Z) :
  is_Some (t !! k) → ∃ m, max_rowid t = Some m ∧ k ≤ m.
Proof.
  unfold max_rowid. revert k.
  apply (map_fold_weak_ind
    (λ acc (m : Table), ∀ k, is_Some (m !! k) → ∃ mx, acc = Some mx ∧ k ≤ mx)).
  - intros k Hk. rewrite lookup_empty in Hk. by destruct Hk.
  - intros i x m acc Hi IH k Hk.
    destruct (decide (i = k)) as [->|Hne].
    + destruct acc as [mx|]; simpl; eexists; split; eauto; lia.
    + rewrite lookup_insert_ne in Hk by done.
      destruct (IH k Hk) as (mx & -> & Hle). simpl.
      eexists; split; eauto. lia.
Qed.

Lemma next_rowid_fresh (t : Table) : t !! next_rowid t = None.
Proof.
  destruct (t !! next_rowid t) as [r|] eqn:E; [|done].
  destruct (max_rowid_bound t (next_rowid t)) as (m & Hm & Hle); [by eexists|].
  unfold next_rowid in Hle. rewrite Hm in Hle. simpl in Hle. lia.
Qed.

Lemma next_rowid_empty : next_rowid ∅ = 1.
Proof. reflexivity. Qed.

(** ** Symbolic execution of the programs *)

Create HintDb orm.
#[local] Hint Unfold create_user get_user update_user delete_user
  with_Session new_User alloc deref store Session_open Session_close finally
  session_add session_get mark_dirty set_username set_email session_delete
  flush_insert flush_update flush_delete flush session_commit session_refresh
  session_exec_select_where_id one if_truthy return_ on_session in_session
  gets modify raise with_engine with_heap with_session with_commits with_txn
  with_identity with_new with_dirty with_deleted mbind M_bind mret M_ret : orm.

Arguments next_rowid : simpl never.

Lemma heap_last (h : list User) u : (h ++ [u]) !!! length h = u.
Proof. by apply list_lookup_total_middle. Qed.

Lemma heap_set_last (h : list User) u u' :
  <[length h:=u']> (h ++ [u]) = h ++ [u'].
Proof. rewrite insert_app_r_alt; [|lia]. by rewrite Nat.sub_diag. Qed.

Ltac exec :=
  repeat (progress
    (autounfold with orm; cbn;
     rewrite ?heap_last, ?heap_set_last, ?Nat.eqb_refl, ?next_rowid_fresh,
       ?lookup_insert_eq, ?lookup_alter_eq, ?lookup_delete_eq)).

Lemma alter_const_insert (t : Table) k r x :
  t !! k = Some r → alter (λ _, x) k t = <[k:=x]> t.
Proof.
  intros Hk. apply map_eq; intros j. destruct (decide (k = j)) as [->|Hne].
  - by rewrite lookup_alter_eq, lookup_insert_eq, Hk.
  - by rewrite lookup_alter_ne, lookup_insert_ne.
Qed.

(** ** What each function of crud.py does, from any state of the process *)

Lemma create_user_run w username email :
  let k := next_rowid (engine w) in
  let db' := <[k:=mkRow username email]> (engine w) in
  create_user username email w
  = (Ok (mkUser (Some k) username email),
     mkWorld db' (heap w ++ [mkUser (Some k) username email]) (closed db')
       (S (commits w))).
Proof. destruct w as [db h s n]. by exec. Qed.

Section stored_row.
Context (w : World) (k : Z) (r : Row).
Hypothesis Hk : engine w !! k = Some r.

Lemma get_user_found :
  get_user k w
  = (Ok (user_of k r),
     mkWorld (engine w) (heap w ++ [user_of k r]) (closed (engine w))
       (commits w)).
Proof using Hk.
  destruct w as [db h s n]. cbn in Hk. exec. rewrite Hk. by exec.
Qed.

Lemma update_user_found (username email : option string) :
  let r' := mkRow (merge (row_username r) username)
                  (merge (row_email r) email) in
  let db' := <[k:=r']> (engine w) in
  update_user k username email w
  = (Ok (Some (user_of k r')),
     mkWorld db' (heap w ++ [user_of k r']) (closed db') (S (commits w))).
Proof using Hk.
  destruct w as [db h s n], r as [ru re]. cbn in Hk.
  exec. rewrite Hk.
  destruct username as [[|c un]|], email as [[|c' em]|];
    exec; rewrite ?Hk; exec; unfold merge, closed; cbn;
    rewrite ?(alter_const_insert _ _ _ _ Hk), ?(insert_id _ _ _ Hk); done.
Qed.

Lemma delete_user_found :
  delete_user k w
  = (Ok (),
     mkWorld (delete k (engine w)) (heap w ++ [user_of k r])
       (closed (delete k (engine w))) (S (commits w))).
Proof using Hk.
  destruct w as [db h s n]. cbn in Hk. exec. rewrite Hk. by exec.
Qed.
End stored_row.

Section missing_row.
Context (w : World) (k : Z).
Hypothesis Hk : engine w !! k = None.

Lemma get_user_missing :
  get_user k w
  = (Raise NoResultFound,
     mkWorld (engine w) (heap w) (closed (engine w)) (commits w)).
Proof using Hk.
  destruct w as [db h s n]. cbn in Hk. exec. rewrite Hk. by exec.
Qed.

Lemma update_user_missing (username email : option string) :
  update_user k username email w
  = (Raise (update_user_None_exn username email),
     mkWorld (engine w) (heap w) (closed (engine w)) (commits w)).
Proof using Hk.
  destruct w as [db h s n]. cbn in Hk. exec. rewrite Hk.
  destruct username as [[|c un]|], email as [[|c' em]|]; by exec.
Qed.

Lemma delete_user_missing :
  delete_user k w
  = (Raise UnmappedInstanceError,
     mkWorld (engine w) (heap w) (closed (engine w)) (commits w)).
Proof using Hk.
  destruct w as [db h s n]. cbn in Hk. exec. rewrite Hk. by exec.
Qed.
End missing_row.

(** ** The committed table after a call, found or not *)

Lemma get_user_engine w k : engine (get_user k w).2 = engine w.
Proof.
  destruct (engine w !! k) as [r|] eqn:Hk.
  - by rewrite (get_user_found _ _ _ Hk).
  - by rewrite (get_user_missing _ _ Hk).
Qed.

Lemma update_user_engine_other w k username email j :
  j ≠ k → engine (update_user k username email w).2 !! j = engine w !! j.
Proof.
  intros Hj. destruct (engine w !! k) as [r|] eqn:Hk.
  - rewrite (update_user_found _ _ _ Hk). cbn. by rewrite lookup_insert_ne.
  - by rewrite (update_user_missing _ _ Hk).
Qed.

Lemma update_user_dom w k username email :
  dom (engine (update_user k username email w).2) = dom (engine w).
Proof.
  destruct (engine w !! k) as [r|] eqn:Hk.
  - rewrite (update_user_found _ _ _ Hk). cbn. rewrite dom_insert_L.
    apply (elem_of_dom_2 (D:=gset Z)) in Hk. set_solver.
  - by rewrite (update_user_missing _ _ Hk).
Qed.

Lemma delete_user_engine w k :
  engine (delete_user k w).2 = delete k (engine w).
Proof.
  destruct (engine w !! k) as [r|] eqn:Hk.
  - by rewrite (delete_user_found _ _ _ Hk).
  - rewrite (delete_user_missing _ _ Hk). cbn. by rewrite delete_id.
Qed.

(** ** Every stored identifier was handed out by [create_user] *)

Lemma serve_dom rq w :
  dom (engine (serve rq w).2)
  ⊆ dom (engine w) ∪ list_to_set (option_list (serve rq w).1).
Proof.
  destruct rq as [u e|k|k u e|k]; cbn.
  - rewrite create_user_run. cbn. rewrite dom_insert_L. set_solver.
  - rewrite get_user_engine. set_solver.
  - rewrite update_user_dom. set_solver.
  - rewrite delete_user_engine, dom_delete_L. set_solver.
Qed.

Lemma serve_all_dom rqs w :
  dom (engine (serve_all rqs w).2)
  ⊆ dom (engine w) ∪ list_to_set (serve_all rqs w).1.
Proof.
  revert w. induction rqs as [|rq rqs IH]; intros w; cbn.
  - set_solver.
  - pose proof (serve_dom rq w) as Hrq.
    destruct (serve rq w) as [i w'] eqn:Hs. cbn in Hrq.
    specialize (IH w').
    destruct (serve_all rqs w') as [ids w''] eqn:Hss. cbn in *.
    rewrite list_to_set_app_L. set_solver.
Qed.

Lemma never_created_not_stored rqs k :
  k ∉ (serve_all rqs (boot ∅)).1 →
  engine (serve_all rqs (boot ∅)).2 !! k = None.
Proof.
  intros Hk. apply (not_elem_of_dom (D:=gset Z)).
  intros Hin. apply serve_all_dom in Hin. cbn in Hin.
  rewrite dom_empty_L in Hin. set_solver.
Qed.

(** * The data-access contracts *)

(** C1.  From any state of the process and for any two strings,
    [create_user username email] returns a [User] carrying an identifier,
    and [get_user] on that identifier, called next, returns a [User] with
    that identifier whose [username] and [email] are exactly the two
    strings. *)
Theorem create_user_then_get_user (w : World) (u e : string) :
  ∃ (k : Z) (w1 w2 : World),
    create_user u e w = (Ok (mkUser (Some k) u e), w1) ∧
    get_user k w1 = (Ok (mkUser (Some k) u e), w2).
Proof.
  eexists _, _, _. split.
  - apply create_user_run.
  - rewrite (get_user_found _ _ (mkRow u e)); [reflexivity|].
    cbn. apply lookup_insert_eq.
Qed.

(** C2.  When [user_id] names a stored row, [update_user] returns the
    updated [User], which is also what the table then holds under
    [user_id]; a field differs from its old value only if its replacement is
    truthy; with two falsy replacements the committed table is the one from
    before the call; and an empty-string replacement leaves its field at the
    old value. *)
Theorem update_user_overwrites_only_truthy
    (w : World) (k : Z) (r : Row) (un em : option string) :
  engine w !! k = Some r →
  ∃ (user : User) (w' : World),
    update_user k un em w = (Ok (Some user), w') ∧
    id user = Some k ∧
    engine w' !! k = Some (row_of user) ∧
    (username user ≠ row_username r → truthy un = true) ∧
    (email user ≠ row_email r → truthy em = true) ∧
    (truthy un = false → truthy em = false →
       engine w' = engine w ∧ user = user_of k r) ∧
    (un = Some "" → username user = row_username r) ∧
    (em = Some "" → email user = row_email r).
Proof.
  intros Hk. eexists _, _. split; [by apply update_user_found|].
  cbn. rewrite lookup_insert_eq. unfold merge.
  split; [done|]. split; [done|]. split; [|split; [|split; [|split]]].
  - destruct (truthy un); [done|]. by intros [].
  - destruct (truthy em); [done|]. by intros [].
  - intros -> ->. destruct r as [ru re]. cbn. split; [|done].
    by apply insert_id.
  - by intros ->.
  - by intros ->.
Qed.

Lemma update_user_overwrites_only_truthy_witness :
  engine (boot alice_db) !! 1 = Some (mkRow "alice" "a@x.com") ∧
  ∃ (user : User) (w' : World),
    update_user 1 (Some "") None (boot alice_db) = (Ok (Some user), w') ∧
    user = mkUser (Some 1) "alice" "a@x.com" ∧
    engine w' = alice_db.
Proof.
  assert (engine (boot alice_db) !! 1 = Some (mkRow "alice" "a@x.com"))
    as Hk by (vm_compute; reflexivity).
  split; [exact Hk|].
  destruct (update_user_overwrites_only_truthy (boot alice_db) 1
              (mkRow "alice" "a@x.com") (Some "") None Hk)
    as (user & w' & Hrun & _ & _ & _ & _ & Hsame & _).
  exists user, w'. split; [exact Hrun|].
  destruct (Hsame eq_refl eq_refl) as [He Hu]. split; [exact Hu|exact He].
Defined.

(** C3.  When no stored row has the identifier [k], an integer of the
    store's 64-bit range -- which is the case in particular when the process
    started on an empty table, has served any sequence of calls since, and
    no [create_user] among them returned [k] -- then [get_user k] raises
    [NoResultFound] and leaves the table as it was; it returns no value at
    all, empty or otherwise. *)
Theorem get_user_not_found (rqs : list request) (w : World) (k : Z) :
  int64 k →
  engine w !! k = None
  ∨ (w = (serve_all rqs (boot ∅)).2 ∧ k ∉ (serve_all rqs (boot ∅)).1) →
  ∃ w' : World,
    get_user k w = (Raise NoResultFound, w') ∧
    engine w' = engine w ∧
    ∀ (user : User) (w'' : World), get_user k w ≠ (Ok user, w'').
Proof.
  intros _ H.
  assert (engine w !! k = None) as Hk.
  { destruct H as [H|[-> H]]; [done|]. by apply never_created_not_stored. }
  rewrite (get_user_missing _ _ Hk). eexists. by repeat split.
Qed.

Lemma get_user_not_found_witness :
  int64 2 ∧
  (serve_all reuse_calls (boot ∅)).1 = [1; 1] ∧
  ∃ w' : World,
    get_user 2 (serve_all reuse_calls (boot ∅)).2 = (Raise NoResultFound, w').
Proof.
  assert ((serve_all reuse_calls (boot ∅)).1 = [1; 1]) as Hids
    by (vm_compute; reflexivity).
  assert (int64 2) as Hrange by (unfold int64, INT64_MAX; lia).
  split; [exact Hrange|]. split; [exact Hids|].
  destruct (get_user_not_found reuse_calls
              (serve_all reuse_calls (boot ∅)).2 2 Hrange)
    as (w' & Hrun & _).
  - right. split; [reflexivity|]. rewrite Hids.
    intros Hin%list_elem_of_In.
    destruct Hin as [Hin|[Hin|[]]]; discriminate Hin.
  - by exists w'.
Defined.

(** C6.  When [user_id] names a stored row, [delete_user] returns without a
    value, the row is gone from the committed table, and [get_user] on the
    same identifier, called next, raises [NoResultFound]. *)
Theorem delete_user_then_get_user (w : World) (k : Z) (r : Row) :
  engine w !! k = Some r →
  ∃ w1 w2 : World,
    delete_user k w = (Ok (), w1) ∧
    engine w1 = delete k (engine w) ∧
    get_user k w1 = (Raise NoResultFound, w2).
Proof.
  intros Hk. eexists _, _. split; [by apply delete_user_found|].
  split; [done|]. apply get_user_missing. cbn. apply lookup_delete_eq.
Qed.

Lemma delete_user_then_get_user_witness :
  engine (boot alice_db) !! 1 = Some (mkRow "alice" "a@x.com") ∧
  ∃ w1 w2 : World,
    delete_user 1 (boot alice_db) = (Ok (), w1) ∧
    engine w1 = delete 1 alice_db ∧
    get_user 1 w1 = (Raise NoResultFound, w2).
Proof.
  assert (engine (boot alice_db) !! 1 = Some (mkRow "alice" "a@x.com"))
    as Hk by (vm_compute; reflexivity).
  split; [exact Hk|].
  exact (delete_user_then_get_user (boot alice_db) 1 _ Hk).
Defined.

(** C7.  When [user_id] names a stored row and exactly one of the two
    replacements is truthy, [update_user] returns the [User] the table then
    holds under [user_id], in which the field with the truthy replacement has
    that replacement, the other field has the value the row had before, and
    every row under another identifier is as it was. *)
Theorem update_user_replaces_only_one_field
    (w : World) (k : Z) (r : Row) (un em : option string) :
  engine w !! k = Some r →
  truthy un = negb (truthy em) →
  ∃ (user : User) (w' : World),
    update_user k un em w = (Ok (Some user), w') ∧
    engine w' !! k = Some (row_of user) ∧
    (truthy un = true → un = Some (username user) ∧ email user = row_email r) ∧
    (truthy em = true → em = Some (email user) ∧ username user = row_username r) ∧
    (∀ j : Z, j ≠ k → engine w' !! j = engine w !! j).
Proof.
  intros Hk Hone. eexists _, _. split; [by apply update_user_found|].
  cbn. rewrite lookup_insert_eq. unfold merge. split; [done|].
  split; [|split].
  - intros Hun. rewrite Hun in *. destruct (truthy em); [done|].
    by destruct un.
  - intros Hem. rewrite Hem in *. cbn in Hone. rewrite Hone.
    by destruct em.
  - intros j Hj. by apply lookup_insert_ne.
Qed.

Lemma update_user_replaces_only_one_field_witness :
  engine (boot alice_db) !! 1 = Some (mkRow "alice" "a@x.com") ∧
  truthy None = negb (truthy (Some "a2@x.com")) ∧
  ∃ (user : User) (w' : World),
    update_user 1 None (Some "a2@x.com") (boot alice_db)
    = (Ok (Some user), w') ∧
    username user = "alice" ∧ email user = "a2@x.com".
Proof.
  assert (engine (boot alice_db) !! 1 = Some (mkRow "alice" "a@x.com"))
    as Hk by (vm_compute; reflexivity).
  split; [exact Hk|]. split; [reflexivity|].
  destruct (update_user_replaces_only_one_field (boot alice_db) 1
              (mkRow "alice" "a@x.com") None (Some "a2@x.com")
              Hk eq_refl)
    as (user & w' & Hrun & _ & _ & Hem & _).
  exists user, w'. split; [exact Hrun|].
  destruct (Hem eq_refl) as [He Hu]. split; [exact Hu|].
  by injection He.
Defined.

(** C8.  From any state of the process and for any two strings -- whatever
    the table already holds, rows with the same username or email included
    -- [create_user] returns a [User] with the two strings and an identifier
    that no row had before; the table then holds the new row under that
    identifier and every earlier row as it was. *)
Theorem create_user_succeeds (w : World) (u e : string) :
  ∃ (k : Z) (w' : World),
    create_user u e w = (Ok (mkUser (Some k) u e), w') ∧
    engine w !! k = None ∧
    engine w' !! k = Some (mkRow u e) ∧
    (∀ (j : Z) (r : Row), engine w !! j = Some r → engine w' !! j = Some r).
Proof.
  eexists _, _. split; [apply create_user_run|]. cbn.
  split; [apply next_rowid_fresh|]. split; [apply lookup_insert_eq|].
  intros j r Hj. rewrite lookup_insert_ne; [done|].
  intros <-. by rewrite next_rowid_fresh in Hj.
Qed.

(** C9.  The identifier [create_user] returns is one no row had, it is the
    identifier the new row is stored under, and no call changes the
    identifier of a row afterwards:
    [create_user] and [get_user] keep every stored row under its identifier;
    after [update_user] the table has the same identifiers as before, the
    returned [User] carries [user_id], and the rows under other identifiers
    are as they were; after [delete_user] the identifiers are those from
    before without [user_id], and the rows under them are as they were. *)
Theorem surrogate_key_immutable (w : World) :
  (∀ u e : string, ∃ k : Z,
     (create_user u e w).1 = Ok (mkUser (Some k) u e) ∧
     engine w !! k = None ∧
     engine (create_user u e w).2 !! k = Some (mkRow u e) ∧
     ∀ (j : Z) (r : Row),
       engine w !! j = Some r → engine (create_user u e w).2 !! j = Some r) ∧
  (∀ k : Z, engine (get_user k w).2 = engine w) ∧
  (∀ (k : Z) (un em : option string),
     dom (engine (update_user k un em w).2) = dom (engine w) ∧
     (∀ user : User,
        (update_user k un em w).1 = Ok (Some user) → id user = Some k) ∧
     ∀ j : Z, j ≠ k → engine (update_user k un em w).2 !! j = engine w !! j) ∧
  (∀ k : Z,
     dom (engine (delete_user k w).2) = dom (engine w) ∖ {[k]} ∧
     ∀ j : Z, j ≠ k → engine (delete_user k w).2 !! j = engine w !! j).
Proof.
  split; [|split; [|split]].
  - intros u e. exists (next_rowid (engine w)).
    rewrite create_user_run. cbn.
    split; [done|]. split; [apply next_rowid_fresh|].
    split; [apply lookup_insert_eq|].
    intros j r Hj. rewrite lookup_insert_ne; [done|].
    intros <-. by rewrite next_rowid_fresh in Hj.
  - apply get_user_engine.
  - intros k un em. split; [apply update_user_dom|]. split.
    + intros user. destruct (engine w !! k) as [r|] eqn:Hk.
      * rewrite (update_user_found _ _ _ Hk). cbn. by intros [= <-].
      * by rewrite (update_user_missing _ _ Hk).
    + intros j Hj. by apply update_user_engine_other.
  - intros k. rewrite delete_user_engine. split; [apply dom_delete_L|].
    intros j Hj. by apply lookup_delete_ne.
Qed.

(** C10.  When no stored row has the identifier [user_id], [update_user] and
    [delete_user] raise, no COMMIT has been issued by the time they do, and
    the committed table is the one from before the call. *)
Theorem failing_update_delete_atomic
    (w : World) (k : Z) (un em : option string) :
  engine w !! k = None →
  (∃ (x : exn) (w' : World),
     update_user k un em w = (Raise x, w') ∧
     commits w' = commits w ∧ engine w' = engine w) ∧
  (∃ (x : exn) (w' : World),
     delete_user k w = (Raise x, w') ∧
     commits w' = commits w ∧ engine w' = engine w).
Proof.
  intros Hk. split; eexists _, _.
  - by rewrite (update_user_missing _ _ Hk).
  - by rewrite (delete_user_missing _ _ Hk).
Qed.

Lemma failing_update_delete_atomic_witness :
  engine (boot alice_db) !! 2 = None ∧
  (∃ (x : exn) (w' : World),
     update_user 2 (Some "bob") (Some "b@x.com") (boot alice_db)
     = (Raise x, w') ∧
     commits w' = 0%nat ∧ engine w' = alice_db) ∧
  (∃ (x : exn) (w' : World),
     delete_user 2 (boot alice_db) = (Raise x, w') ∧
     commits w' = 0%nat ∧ engine w' = alice_db).
Proof.
  assert (engine (boot alice_db) !! 2 = None)
    as Hk by (vm_compute; reflexivity).
  split; [exact Hk|].
  exact (failing_update_delete_atomic (boot alice_db) 2
           (Some "bob") (Some "b@x.com") Hk).
Defined.

(** C4.  What [update_user] does when no stored row has the identifier
    [user_id], an integer of the store's 64-bit range: [session.get] gives
    [None], and the call ends with
    [AttributeError] (a truthy replacement is assigned to an attribute of
    [None]) or with [UnmappedInstanceError] (both replacements falsy, [None]
    is handed to [session.add]); in no case with [NoResultFound], the
    exception [get_user] raises for a missing row. *)
Theorem update_user_missing_raises (w : World) (k : Z) (un em : option string) :
  int64 k →
  engine w !! k = None →
  (update_user k un em w).1
  = Raise (if truthy un || truthy em
           then AttributeError else UnmappedInstanceError) ∧
  (update_user k un em w).1 ≠ Raise NoResultFound.
Proof.
  intros _ Hk. rewrite (update_user_missing _ _ Hk). cbn.
  split; [done|]. unfold update_user_None_exn.
  by destruct (truthy un || truthy em).
Qed.

Lemma update_user_missing_raises_witness :
  int64 1 ∧
  engine (boot ∅) !! 1 = None ∧
  (update_user 1 (Some "bob") (Some "") (boot ∅)).1 = Raise AttributeError ∧
  (update_user 1 (Some "") (Some "") (boot ∅)).1 = Raise UnmappedInstanceError.
Proof.
  assert (engine (boot ∅) !! 1 = None) as Hk by (vm_compute; reflexivity).
  assert (int64 1) as Hrange by (unfold int64, INT64_MAX; lia).
  split; [exact Hrange|]. split; [exact Hk|]. split.
  - exact (proj1 (update_user_missing_raises (boot ∅) 1
                    (Some "bob") (Some "") Hrange Hk)).
  - exact (proj1 (update_user_missing_raises (boot ∅) 1
                    (Some "") (Some "") Hrange Hk)).
Defined.

(** C5.  What [delete_user] does when no stored row has the identifier
    [user_id], an integer of the store's 64-bit range: [session.get] gives
    [None], [session.delete(None)] raises
    [UnmappedInstanceError], and the table is left as it was; the call does
    not end with [NoResultFound], the exception [get_user] raises for a
    missing row. *)
Theorem delete_user_missing_raises (w : World) (k : Z) :
  int64 k →
  engine w !! k = None →
  delete_user k w
  = (Raise UnmappedInstanceError,
     mkWorld (engine w) (heap w) (closed (engine w)) (commits w)) ∧
  (delete_user k w).1 ≠ Raise NoResultFound.
Proof.
  intros _ Hk. by rewrite (delete_user_missing _ _ Hk).
Qed.

Lemma delete_user_missing_raises_witness :
  int64 1 ∧
  engine (boot ∅) !! 1 = None ∧
  (delete_user 1 (boot ∅)).1 = Raise UnmappedInstanceError.
Proof.
  assert (engine (boot ∅) !! 1 = None) as Hk by (vm_compute; reflexivity).
  assert (int64 1) as Hrange by (unfold int64, INT64_MAX; lia).
  split; [exact Hrange|]. split; [exact Hk|].
  destruct (delete_user_missing_raises (boot ∅) 1 Hrange Hk) as [Hrun _].
  by rewrite Hrun.
Defined.

(** ** The spec's concrete scenario *)

Example scenario :
  let '(r1, w1) := create_user "alice" "a@x.com" (boot ∅) in
  let '(r2, w2) := get_user 1 w1 in
  let '(r3, w3) := update_user 1 None (Some "a2@x.com") w2 in
  let '(r4, w4) := delete_user 1 w3 in
  let '(r5, w5) := get_user 1 w4 in
  r1 = Ok (mkUser (Some 1) "alice" "a@x.com") ∧
  r2 = Ok (mkUser (Some 1) "alice" "a@x.com") ∧
  r3 = Ok (Some (mkUser (Some 1) "alice" "a2@x.com")) ∧
  r4 = Ok () ∧
  r5 = Raise NoResultFound ∧
  engine w5 = ∅.
Proof. vm_compute. by repeat split. Qed.

(** * Further properties of crud.py *)

(** ** More on the rowid SQLite assigns *)

Lemma max_rowid_stored (t : Table) (m : Z) :
  max_rowid t = Some m → is_Some (t !! m).
Proof.
  unfold max_rowid. revert m.
  apply (map_fold_weak_ind
    (λ acc (t' : Table), ∀ m, acc = Some m → is_Some (t' !! m))).
  - by intros m.
  - intros i x t' acc Hi IH m [= <-].
    destruct acc as [a|]; cbn.
    + destruct (Z.max_spec i a) as [[_ ->]|[_ ->]].
      * destruct (decide (i = a)) as [->|Hne].
        -- rewrite lookup_insert_eq. by eexists.
        -- rewrite lookup_insert_ne by done. by apply IH.
      * rewrite lookup_insert_eq. by eexists.
    + rewrite lookup_insert_eq. by eexists.
Qed.

Lemma next_rowid_insert (t : Table) (r : Row) :
  next_rowid (<[next_rowid t:=r]> t) = next_rowid t + 1.
Proof.
  set (n := next_rowid t). set (t' := <[n:=r]> t).
  destruct (max_rowid_bound t' n) as (m' & Hm' & Hle).
  { unfold t'. rewrite lookup_insert_eq. by eexists. }
  unfold next_rowid at 1. fold t'. rewrite Hm'. cbn.
  destruct (decide (m' = n)) as [->|Hne]; [lia|].
  pose proof (max_rowid_stored _ _ Hm') as Hin.
  unfold t' in Hin. rewrite lookup_insert_ne in Hin by done.
  destruct (max_rowid_bound t m' Hin) as (m & Hm & Hle').
  unfold n, next_rowid in Hle. rewrite Hm in Hle. cbn in Hle.
  unfold n, next_rowid in Hne. rewrite Hm in Hne. cbn in Hne. lia.
Qed.

Lemma merge_idemp (old : string) (replacement : option string) :
  merge (merge old replacement) replacement = merge old replacement.
Proof. unfold merge. by destruct (truthy replacement), replacement. Qed.

Lemma merge_nonempty (old : string) (replacement : option string) :
  old ≠ "" → merge old replacement ≠ "".
Proof. unfold merge. by destruct replacement as [[|c s]|]. Qed.

(** X1.  [get_user user_id] returns a [User] exactly when the table holds a
    row under [user_id], and then the [User] carries [user_id] and the two
    fields of that row; found or not, the call leaves the committed table
    as it is and issues no COMMIT. *)
Theorem get_user_reads_the_row (w : World) (k : Z) :
  (∀ u : User,
     (get_user k w).1 = Ok u
     ↔ id u = Some k ∧ engine w !! k = Some (row_of u)) ∧
  engine (get_user k w).2 = engine w ∧
  commits (get_user k w).2 = commits w.
Proof.
  destruct (engine w !! k) as [r|] eqn:Hk.
  - rewrite (get_user_found _ _ _ Hk). cbn. split; [|done].
    intros [i un em]. destruct r as [ru re]. unfold user_of, row_of. cbn.
    split.
    + by intros [= <- <- <-].
    + by intros [-> [= -> ->]].
  - rewrite (get_user_missing _ _ Hk). cbn. split; [|done].
    intros u. split; [done|]. by intros [_ ?].
Qed.

(** X2.  When [update_user] returns a [User], [get_user] on the same
    identifier, called next, returns that same [User]. *)
Theorem update_user_then_get_user
    (w w1 : World) (k : Z) (un em : option string) (u : User) :
  update_user k un em w = (Ok (Some u), w1) →
  ∃ w2 : World, get_user k w1 = (Ok u, w2).
Proof.
  intros Hrun. destruct (engine w !! k) as [r|] eqn:Hk.
  - rewrite (update_user_found _ _ _ Hk) in Hrun. cbn in Hrun.
    injection Hrun as <- <-. eexists.
    apply get_user_found. cbn. apply lookup_insert_eq.
  - by rewrite (update_user_missing _ _ Hk) in Hrun.
Qed.

Lemma update_user_then_get_user_witness :
  ∃ w1 w2 : World,
    update_user 1 (Some "al") (Some "") (boot alice_db)
    = (Ok (Some (mkUser (Some 1) "al" "a@x.com")), w1) ∧
    get_user 1 w1 = (Ok (mkUser (Some 1) "al" "a@x.com"), w2).
Proof.
  assert (update_user 1 (Some "al") (Some "") (boot alice_db)
          = (Ok (Some (mkUser (Some 1) "al" "a@x.com")),
             (update_user 1 (Some "al") (Some "") (boot alice_db)).2))
    as Hrun by (vm_compute; reflexivity).
  destruct (update_user_then_get_user _ _ _ _ _ _ Hrun) as [w2 Hget].
  by eexists _, w2.
Defined.

(** X3.  [update_user] returns a [User] exactly when the table holds a row
    under [user_id], and never returns [None]; [delete_user] returns exactly
    when the table holds a row under [user_id]. *)
Theorem update_delete_succeed_iff_stored
    (w : World) (k : Z) (un em : option string) :
  ((∃ u : User, (update_user k un em w).1 = Ok (Some u))
   ↔ is_Some (engine w !! k)) ∧
  (update_user k un em w).1 ≠ Ok None ∧
  ((delete_user k w).1 = Ok () ↔ is_Some (engine w !! k)).
Proof.
  destruct (engine w !! k) as [r|] eqn:Hk.
  - rewrite (update_user_found _ _ _ Hk), (delete_user_found _ _ _ Hk). cbn.
    split; [|split]; [|done|]; split; eauto.
  - rewrite (update_user_missing _ _ Hk), (delete_user_missing _ _ Hk). cbn.
    split; [|split]; [|done|]; split; try done; by intros [? ?].
Qed.

(** X4.  [update_user] is idempotent: a second call with the same arguments
    returns (or raises) what the first did and leaves the committed table as
    the first left it. *)
Theorem update_user_idempotent (w : World) (k : Z) (un em : option string) :
  (update_user k un em (update_user k un em w).2).1
  = (update_user k un em w).1 ∧
  engine (update_user k un em (update_user k un em w).2).2
  = engine (update_user k un em w).2.
Proof.
  destruct (engine w !! k) as [r|] eqn:Hk.
  - rewrite (update_user_found _ _ _ Hk). cbn.
    erewrite update_user_found; [|cbn; apply lookup_insert_eq]. cbn.
    rewrite !merge_idemp. split; [done|]. apply insert_insert_eq.
  - rewrite (update_user_missing _ _ Hk). cbn.
    by rewrite update_user_missing.
Qed.

(** X5.  The number of stored rows: [create_user] adds exactly one,
    [get_user] and [update_user] keep it, [delete_user] takes exactly one
    away when the table holds a row under [user_id] and none otherwise. *)
Theorem row_count (w : World) :
  (∀ u e : string, size (engine (create_user u e w).2) = S (size (engine w))) ∧
  (∀ k : Z, size (engine (get_user k w).2) = size (engine w)) ∧
  (∀ (k : Z) (un em : option string),
     size (engine (update_user k un em w).2) = size (engine w)) ∧
  (∀ k : Z,
     size (engine w)
     = match engine w !! k with
       | Some _ => S (size (engine (delete_user k w).2))
       | None => size (engine (delete_user k w).2)
       end).
Proof.
  split; [|split; [|split]].
  - intros u e. rewrite create_user_run. cbn.
    apply map_size_insert_None, next_rowid_fresh.
  - intros k. by rewrite get_user_engine.
  - intros k un em. destruct (engine w !! k) as [r|] eqn:Hk.
    + rewrite (update_user_found _ _ _ Hk). cbn.
      apply map_size_insert_Some. by eexists.
    + by rewrite (update_user_missing _ _ Hk).
  - intros k. rewrite delete_user_engine.
    destruct (engine w !! k) as [r|] eqn:Hk.
    + rewrite <- (insert_delete_id (engine w) k r Hk) at 1.
      apply map_size_insert_None, lookup_delete_eq.
    + by rewrite delete_id.
Qed.

(** X6.  [update_user] cannot blank a field: when the stored username is
    not the empty string it is not the empty string after the call either,
    whatever the replacements are, and the same holds for the email. *)
Theorem update_user_never_blanks
    (w : World) (k : Z) (r : Row) (un em : option string) :
  engine w !! k = Some r →
  ∃ r' : Row,
    engine (update_user k un em w).2 !! k = Some r' ∧
    (row_username r ≠ "" → row_username r' ≠ "") ∧
    (row_email r ≠ "" → row_email r' ≠ "").
Proof.
  intros Hk. rewrite (update_user_found _ _ _ Hk). cbn.
  rewrite lookup_insert_eq. eexists. split; [done|]. cbn.
  split; apply merge_nonempty.
Qed.

Lemma update_user_never_blanks_witness :
  engine (boot alice_db) !! 1 = Some (mkRow "alice" "a@x.com") ∧
  ∃ r' : Row,
    engine (update_user 1 (Some "") (Some "") (boot alice_db)).2 !! 1
    = Some r' ∧
    row_username r' ≠ "" ∧ row_email r' ≠ "".
Proof.
  assert (engine (boot alice_db) !! 1 = Some (mkRow "alice" "a@x.com"))
    as Hk by (vm_compute; reflexivity).
  split; [exact Hk|].
  destruct (update_user_never_blanks (boot alice_db) 1 _
              (Some "") (Some "") Hk) as (r' & Hr' & Hu & He).
  exists r'. split; [exact Hr'|]. split; [apply Hu|apply He]; discriminate.
Defined.

(** X7.  While the rowids in use are below SQLite's largest rowid, deleting
    the row [create_user] has just stored puts the committed table back as
    it was, and the next [create_user] is given the same identifier
    again. *)
Theorem create_delete_create_reuses_id (w : World) (u e u' e' : string) :
  next_rowid (engine w) ≤ INT64_MAX →
  ∃ (k : Z) (w1 w2 w3 : World),
    create_user u e w = (Ok (mkUser (Some k) u e), w1) ∧
    delete_user k w1 = (Ok (), w2) ∧
    engine w2 = engine w ∧
    create_user u' e' w2 = (Ok (mkUser (Some k) u' e'), w3).
Proof.
  intros _. eexists _, _, _, _. split; [apply create_user_run|].
  split; [apply (delete_user_found _ _ (mkRow u e)); cbn;
          apply lookup_insert_eq|].
  cbn. rewrite delete_insert_id by apply next_rowid_fresh.
  split; [done|]. by rewrite create_user_run.
Qed.

Lemma create_delete_create_reuses_id_witness :
  next_rowid (engine (boot alice_db)) ≤ INT64_MAX ∧
  ∃ (k : Z) (w1 w2 w3 : World),
    create_user "bob" "b@x.com" (boot alice_db)
    = (Ok (mkUser (Some k) "bob" "b@x.com"), w1) ∧
    delete_user k w1 = (Ok (), w2) ∧
    engine w2 = alice_db ∧
    create_user "carol" "c@x.com" w2
    = (Ok (mkUser (Some k) "carol" "c@x.com"), w3).
Proof.
  assert (next_rowid (engine (boot alice_db)) ≤ INT64_MAX)
    as Hbelow by (vm_compute; discriminate).
  split; [exact Hbelow|].
  exact (create_delete_create_reuses_id (boot alice_db)
           "bob" "b@x.com" "carol" "c@x.com" Hbelow).
Defined.

(** X8.  What a call returns or raises, and the committed table it leaves,
    depend on the committed table alone: not on the instances earlier calls
    allocated, on what an earlier session held, or on how many COMMITs were
    issued before.  For [create_user] this is so while the rowids in use are
    below SQLite's largest rowid. *)
Theorem calls_depend_on_table_only (w1 w2 : World) :
  engine w1 = engine w2 →
  (next_rowid (engine w1) ≤ INT64_MAX →
   ∀ u e : string,
     (create_user u e w1).1 = (create_user u e w2).1 ∧
     engine (create_user u e w1).2 = engine (create_user u e w2).2) ∧
  (∀ k : Z,
     (get_user k w1).1 = (get_user k w2).1 ∧
     engine (get_user k w1).2 = engine (get_user k w2).2) ∧
  (∀ (k : Z) (un em : option string),
     (update_user k un em w1).1 = (update_user k un em w2).1 ∧
     engine (update_user k un em w1).2 = engine (update_user k un em w2).2) ∧
  (∀ k : Z,
     (delete_user k w1).1 = (delete_user k w2).1 ∧
     engine (delete_user k w1).2 = engine (delete_user k w2).2).
Proof.
  intros Heq. split; [|split; [|split]].
  - intros _ u e. rewrite !create_user_run. cbn. by rewrite Heq.
  - intros k. destruct (engine w2 !! k) as [r|] eqn:Hk.
    + rewrite (get_user_found w2 _ _ Hk). rewrite <- Heq in Hk.
      by rewrite (get_user_found w1 _ _ Hk).
    + rewrite (get_user_missing w2 _ Hk). rewrite <- Heq in Hk.
      by rewrite (get_user_missing w1 _ Hk).
  - intros k un em. destruct (engine w2 !! k) as [r|] eqn:Hk.
    + rewrite (update_user_found w2 _ _ Hk). rewrite <- Heq in Hk.
      rewrite (update_user_found w1 _ _ Hk). cbn. by rewrite Heq.
    + rewrite (update_user_missing w2 _ Hk). rewrite <- Heq in Hk.
      by rewrite (update_user_missing w1 _ Hk).
  - intros k. destruct (engine w2 !! k) as [r|] eqn:Hk.
    + rewrite (delete_user_found w2 _ _ Hk). rewrite <- Heq in Hk.
      rewrite (delete_user_found w1 _ _ Hk). cbn. by rewrite Heq.
    + rewrite (delete_user_missing w2 _ Hk). rewrite <- Heq in Hk.
      by rewrite (delete_user_missing w1 _ Hk).
Qed.

Lemma calls_depend_on_table_only_witness :
  engine (get_user 1 (boot alice_db)).2 = engine (boot alice_db) ∧
  next_rowid (engine (get_user 1 (boot alice_db)).2) ≤ INT64_MAX ∧
  (create_user "bob" "b@x.com" (get_user 1 (boot alice_db)).2).1
  = (create_user "bob" "b@x.com" (boot alice_db)).1 ∧
  (update_user 1 None (Some "a2@x.com") (get_user 1 (boot alice_db)).2).1
  = (update_user 1 None (Some "a2@x.com") (boot alice_db)).1.
Proof.
  assert (engine (get_user 1 (boot alice_db)).2 = engine (boot alice_db))
    as Heq by (vm_compute; reflexivity).
  assert (next_rowid (engine (get_user 1 (boot alice_db)).2) ≤ INT64_MAX)
    as Hbelow by (vm_compute; discriminate).
  split; [exact Heq|]. split; [exact Hbelow|].
  destruct (calls_depend_on_table_only _ _ Heq) as (Hcre & _ & Hupd & _).
  split.
  - exact (proj1 (Hcre Hbelow "bob" "b@x.com")).
  - exact (proj1 (Hupd 1 None (Some "a2@x.com"))).
Defined.

(** X9.  While there is room for two more rowids below SQLite's largest
    rowid, two calls of [create_user] in a row are given consecutive
    identifiers, and the table then holds both rows, also when the two
    calls pass the same username and email. *)
Theorem create_user_twice (w : World) (u e u' e' : string) :
  next_rowid (engine w) < INT64_MAX →
  ∃ (k : Z) (w1 w2 : World),
    create_user u e w = (Ok (mkUser (Some k) u e), w1) ∧
    create_user u' e' w1 = (Ok (mkUser (Some (k + 1)) u' e'), w2) ∧
    engine w2 !! k = Some (mkRow u e) ∧
    engine w2 !! (k + 1) = Some (mkRow u' e').
Proof.
  intros _. eexists _, _, _. split; [apply create_user_run|].
  rewrite create_user_run. cbn. rewrite next_rowid_insert.
  split; [done|]. cbn. split.
  - rewrite lookup_insert_ne by lia. apply lookup_insert_eq.
  - apply lookup_insert_eq.
Qed.

Lemma create_user_twice_witness :
  next_rowid (engine (boot alice_db)) < INT64_MAX ∧
  ∃ (k : Z) (w1 w2 : World),
    create_user "alice" "a@x.com" (boot alice_db)
    = (Ok (mkUser (Some k) "alice" "a@x.com"), w1) ∧
    create_user "alice" "a@x.com" w1
    = (Ok (mkUser (Some (k + 1)) "alice" "a@x.com"), w2) ∧
    engine w2 !! k = Some (mkRow "alice" "a@x.com") ∧
    engine w2 !! (k + 1) = Some (mkRow "alice" "a@x.com").
Proof.
  assert (next_rowid (engine (boot alice_db)) < INT64_MAX)
    as Hbelow by (vm_compute; reflexivity).
  split; [exact Hbelow|].
  exact (create_user_twice (boot alice_db)
           "alice" "a@x.com" "alice" "a@x.com" Hbelow).
Defined.

(** X10.  [delete_user] is not idempotent: after it has removed the row
    under [user_id], a second call with the same identifier raises
    [UnmappedInstanceError] and leaves the committed table as the first call
    left it. *)
Theorem delete_user_twice (w : World) (k : Z) (r : Row) :
  engine w !! k = Some r →
  ∃ w1 w2 : World,
    delete_user k w = (Ok (), w1) ∧
    delete_user k w1 = (Raise UnmappedInstanceError, w2) ∧
    engine w2 = engine w1.
Proof.
  intros Hk. eexists _, _. split; [by apply delete_user_found|].
  split; [|reflexivity].
  rewrite delete_user_missing; [done|]. cbn. apply lookup_delete_eq.
Qed.

Lemma delete_user_twice_witness :
  engine (boot alice_db) !! 1 = Some (mkRow "alice" "a@x.com") ∧
  ∃ w1 w2 : World,
    delete_user 1 (boot alice_db) = (Ok (), w1) ∧
    delete_user 1 w1 = (Raise UnmappedInstanceError, w2) ∧
    engine w2 = engine w1.
Proof.
  assert (engine (boot alice_db) !! 1 = Some (mkRow "alice" "a@x.com"))
    as Hk by (vm_compute; reflexivity).
  split; [exact Hk|].
  exact (delete_user_twice (boot alice_db) 1 _ Hk).
Defined.

(** ** Sequences of calls *)

Lemma serve_not_Create_dom rq w :
  is_Create rq = false → dom (engine (serve rq w).2) ⊆ dom (engine w).
Proof.
  destruct rq as [u e|k|k u e|k]; cbn; [done| | |]; intros _.
  - by rewrite get_user_engine.
  - by rewrite update_user_dom.
  - rewrite delete_user_engine, dom_delete_L. set_solver.
Qed.

Lemma serve_not_Delete_dom rq w :
  is_Delete rq = false → dom (engine w) ⊆ dom (engine (serve rq w).2).
Proof.
  destruct rq as [u e|k|k u e|k]; cbn; [| | |done]; intros _.
  - rewrite create_user_run. cbn. rewrite dom_insert_L. set_solver.
  - by rewrite get_user_engine.
  - by rewrite update_user_dom.
Qed.

Lemma serve_all_cons rq rqs w :
  (serve_all (rq :: rqs) w).2 = (serve_all rqs (serve rq w).2).2.
Proof.
  cbn. destruct (serve rq w) as [i w']. cbn.
  by destruct (serve_all rqs w') as [ids w''].
Qed.

(** X11.  Over any sequence of calls, only [create_user] brings an
    identifier into the table and only [delete_user] takes one out: a
    sequence without a create ends with no identifier that was not there at
    its start, and a sequence without a delete ends with every identifier
    that was there at its start. *)
Theorem only_create_adds_only_delete_removes (rqs : list request) (w : World) :
  (Forall (λ rq, is_Create rq = false) rqs →
     dom (engine (serve_all rqs w).2) ⊆ dom (engine w)) ∧
  (Forall (λ rq, is_Delete rq = false) rqs →
     dom (engine w) ⊆ dom (engine (serve_all rqs w).2)).
Proof.
  revert w. induction rqs as [|rq rqs IH]; intros w.
  - by split.
  - rewrite serve_all_cons.
    destruct (IH (serve rq w).2) as [IHc IHd]. split.
    + intros [Hrq Hrqs]%Forall_cons.
      etrans; [by apply IHc|]. by apply serve_not_Create_dom.
    + intros [Hrq Hrqs]%Forall_cons.
      etrans; [|by apply IHd]. by apply serve_not_Delete_dom.
Qed.

Lemma only_create_adds_only_delete_removes_witness :
  dom (engine (serve_all [Read 1; Update 2 (Some "bob") None; Delete 1]
                 (boot alice_db)).2) ⊆ dom alice_db ∧
  dom alice_db
  ⊆ dom (engine (serve_all [Create "bob" "b@x.com"; Update 1 None None]
                   (boot alice_db)).2).
Proof.
  split.
  - apply (proj1 (only_create_adds_only_delete_removes
                    [Read 1; Update 2 (Some "bob") None; Delete 1]
                    (boot alice_db))).
    by repeat constructor.
  - apply (proj2 (only_create_adds_only_delete_removes
                    [Create "bob" "b@x.com"; Update 1 None None]
                    (boot alice_db))).
    by repeat constructor.
Defined.

(** X12.  Every call issues at most one COMMIT: [create_user] exactly one,
    [update_user] and [delete_user] exactly one when the table holds a row
    under [user_id] and none when it does not. *)
Theorem one_commit_per_write (w : World) :
  (∀ u e : string, commits (create_user u e w).2 = S (commits w)) ∧
  (∀ (k : Z) (un em : option string),
     commits (update_user k un em w).2
     = match engine w !! k with
       | Some _ => S (commits w)
       | None => commits w
       end) ∧
  (∀ k : Z,
     commits (delete_user k w).2
     = match engine w !! k with
       | Some _ => S (commits w)
       | None => commits w
       end).
Proof.
  split; [|split].
  - intros u e. by rewrite create_user_run.
  - intros k un em. destruct (engine w !! k) as [r|] eqn:Hk.
    + by rewrite (update_user_found _ _ _ Hk).
    + by rewrite (update_user_missing _ _ Hk).
  - intros k. destruct (engine w !! k) as [r|] eqn:Hk.
    + by rewrite (delete_user_found _ _ _ Hk).
    + by rewrite (delete_user_missing _ _ Hk).
Qed.

(** * Properties of the views of app.py *)

Ltac view :=
  cbv beta iota delta
    [app.users app.user app.delete_user_route app.form_getitem app.crud
     app.unbound mbind app.V_bind mret app.V_ret].

Lemma merge_Some (old s : string) :
  merge old (Some s) = if decide (s = "") then old else s.
Proof. unfold merge. by destruct s. Qed.

(** X13.  A POST whose form lacks the field [username] or the field [email]
    ends both form views with [BadRequestKeyError] before crud.py is
    called: nothing at all changes, whether or not the row exists. *)
Theorem post_without_field_changes_nothing
    (w : World) (k : Z) (rq : app.Request) :
  app.method rq = app.POST →
  app.getitem (app.form rq) "username" = None
  ∨ app.getitem (app.form rq) "email" = None →
  (∃ key : string,
     app.users rq w = (app.Raises (app.BadRequestKeyError key), w)) ∧
  (∃ key : string,
     app.user k rq w = (app.Raises (app.BadRequestKeyError key), w)).
Proof.
  intros Hm Hf. view. rewrite Hm.
  destruct (app.getitem (app.form rq) "username") as [u|] eqn:Hu.
  - destruct Hf as [?|He]; [done|]. rewrite He. by split; exists "email".
  - by split; exists "username".
Qed.

Lemma post_without_field_changes_nothing_witness :
  ∃ key : string,
    app.user 1 (app.mkRequest app.POST [("username", "bob")]) (boot alice_db)
    = (app.Raises (app.BadRequestKeyError key), boot alice_db).
Proof.
  exact (proj2 (post_without_field_changes_nothing (boot alice_db) 1
                  (app.mkRequest app.POST [("username", "bob")])
                  eq_refl (or_intror eq_refl))).
Defined.

(** X14.  A POST to [/users] with both fields stores a row with the first
    value sent for each field under an identifier no row had, and answers
    with a redirect to [/users]; a request to [/user/<id>] for that
    identifier with another method then renders [user.html] with that
    identifier and those two values. *)
Theorem post_users_then_show_user
    (w : World) (rq rq' : app.Request) (u e : string) :
  app.method rq = app.POST →
  app.getitem (app.form rq) "username" = Some u →
  app.getitem (app.form rq) "email" = Some e →
  app.method rq' ≠ app.POST →
  ∃ (k : Z) (w1 w2 : World),
    app.users rq w = (app.Returns (app.redirect "/users"), w1) ∧
    engine w !! k = None ∧
    engine w1 !! k = Some (mkRow u e) ∧
    app.user k rq' w1
    = (app.Returns (app.render_template "user.html" (mkUser (Some k) u e)),
       w2).
Proof.
  intros Hm Hu He Hm'. eexists (next_rowid (engine w)), _, _.
  view. rewrite Hm, Hu, He, create_user_run. cbn.
  split; [reflexivity|]. split; [apply next_rowid_fresh|].
  split; [apply lookup_insert_eq|].
  destruct (app.method rq'); [| |done];
    by rewrite (get_user_found _ _ (mkRow u e))
      by (cbn; apply lookup_insert_eq).
Qed.

Lemma post_users_then_show_user_witness :
  ∃ (k : Z) (w1 w2 : World),
    app.users (app.mkRequest app.POST app.alice_form) (boot ∅)
    = (app.Returns (app.redirect "/users"), w1) ∧
    app.user k (app.mkRequest app.GET []) w1
    = (app.Returns
         (app.render_template "user.html" (mkUser (Some k) "alice" "a@x.com")),
       w2).
Proof.
  destruct (post_users_then_show_user (boot ∅)
              (app.mkRequest app.POST app.alice_form)
              (app.mkRequest app.GET []) "alice" "a@x.com"
              eq_refl eq_refl eq_refl)
    as (k & w1 & w2 & Hpost & _ & _ & Hget); [discriminate|].
  by exists k, w1, w2.
Defined.

(** X15.  A request with a method other than POST changes nothing in the
    table and issues no COMMIT: the view [users] ends with [NameError] for
    the name [Session] before anything is read, leaving the process as it
    was, and the view [user] only reads. *)
Theorem other_methods_change_nothing
    (w : World) (k : Z) (rq : app.Request) :
  app.method rq ≠ app.POST →
  app.users rq w = (app.Raises (app.NameError "Session"), w) ∧
  engine (app.user k rq w).2 = engine w ∧
  commits (app.user k rq w).2 = commits w.
Proof.
  intros Hm. view.
  destruct (app.method rq); [| |done];
    (split; [done|]);
    destruct (engine w !! k) as [r|] eqn:Hk;
    by rewrite ?(get_user_found _ _ _ Hk), ?(get_user_missing _ _ Hk).
Qed.

Lemma other_methods_change_nothing_witness :
  app.users (app.mkRequest app.GET []) (boot alice_db)
  = (app.Raises (app.NameError "Session"), boot alice_db) ∧
  engine (app.user 1 (app.mkRequest app.HEAD []) (boot alice_db)).2
  = engine (boot alice_db).
Proof.
  split.
  - refine (proj1 (other_methods_change_nothing (boot alice_db) 1
                     (app.mkRequest app.GET []) _)). discriminate.
  - refine (proj1 (proj2 (other_methods_change_nothing (boot alice_db) 1
                            (app.mkRequest app.HEAD []) _))). discriminate.
Defined.

(** X16.  A POST to [/user/<id>] with both fields, for an identifier the
    table holds, answers with a redirect to [/users]; the row then has, in
    each field, the value sent when that is not the empty string and the
    value from before when it is; rows under other identifiers are as they
    were. *)
Theorem post_user_updates_row
    (w : World) (k : Z) (r : Row) (rq : app.Request) (u e : string) :
  engine w !! k = Some r →
  app.method rq = app.POST →
  app.getitem (app.form rq) "username" = Some u →
  app.getitem (app.form rq) "email" = Some e →
  (app.user k rq w).1 = app.Returns (app.redirect "/users") ∧
  engine (app.user k rq w).2 !! k
  = Some (mkRow (if decide (u = "") then row_username r else u)
                (if decide (e = "") then row_email r else e)) ∧
  ∀ j : Z, j ≠ k → engine (app.user k rq w).2 !! j = engine w !! j.
Proof.
  intros Hk Hm Hu He. view.
  rewrite Hm, Hu, He, (update_user_found _ _ _ Hk). cbn.
  rewrite lookup_insert_eq, !merge_Some. split; [done|]. split; [done|].
  intros j Hj. by apply lookup_insert_ne.
Qed.

Lemma post_user_updates_row_witness :
  engine (boot alice_db) !! 1 = Some (mkRow "alice" "a@x.com") ∧
  (app.user 1 (app.mkRequest app.POST app.blank_form) (boot alice_db)).1
  = app.Returns (app.redirect "/users") ∧
  engine (app.user 1 (app.mkRequest app.POST app.blank_form)
            (boot alice_db)).2 !! 1
  = Some (mkRow "alice" "a@x.com").
Proof.
  assert (engine (boot alice_db) !! 1 = Some (mkRow "alice" "a@x.com"))
    as Hk by (vm_compute; reflexivity).
  split; [exact Hk|].
  destruct (post_user_updates_row (boot alice_db) 1 _
              (app.mkRequest app.POST app.blank_form) "" ""
              Hk eq_refl eq_refl eq_refl) as (Hresp & Hrow & _).
  split; [exact Hresp|exact Hrow].
Defined.

(** X17.  No view catches what crud.py raises.  For an identifier of the
    store's 64-bit range that the table does not hold, the view [user] never
    returns a response and leaves
    the table as it is, ending with [NoResultFound] when the method is not
    POST; the view [delete_user_route] ends with [UnmappedInstanceError] and
    leaves the table as it is. *)
Theorem views_do_not_catch (w : World) (k : Z) (rq : app.Request) :
  int64 k →
  engine w !! k = None →
  (∀ resp : app.Response, (app.user k rq w).1 ≠ app.Returns resp) ∧
  engine (app.user k rq w).2 = engine w ∧
  (app.method rq ≠ app.POST →
     (app.user k rq w).1 = app.Raises (app.CrudError NoResultFound)) ∧
  (app.delete_user_route k w).1
  = app.Raises (app.CrudError UnmappedInstanceError) ∧
  engine (app.delete_user_route k w).2 = engine w.
Proof.
  intros _ Hk. view.
  rewrite (delete_user_missing _ _ Hk). cbn.
  destruct (app.method rq);
    rewrite ?(get_user_missing _ _ Hk); cbn; [done|done|].
  destruct (app.getitem (app.form rq) "username") as [u|]; [|done].
  destruct (app.getitem (app.form rq) "email") as [e|]; [|done].
  by rewrite (update_user_missing _ _ Hk).
Qed.

Lemma views_do_not_catch_witness :
  int64 1 ∧
  engine (boot ∅) !! 1 = None ∧
  (app.user 1 (app.mkRequest app.GET []) (boot ∅)).1
  = app.Raises (app.CrudError NoResultFound) ∧
  (app.delete_user_route 1 (boot ∅)).1
  = app.Raises (app.CrudError UnmappedInstanceError).
Proof.
  assert (engine (boot ∅) !! 1 = None) as Hk by (vm_compute; reflexivity).
  assert (int64 1) as Hrange by (unfold int64, INT64_MAX; lia).
  split; [exact Hrange|]. split; [exact Hk|].
  destruct (views_do_not_catch (boot ∅) 1 (app.mkRequest app.GET [])
              Hrange Hk)
    as (_ & _ & Hget & Hdel & _).
  split; [apply Hget; discriminate|exact Hdel].
Defined.

(** X18.  For an identifier the table holds, the view [delete_user_route]
    answers with a redirect to [/users] and removes that row and no other;
    a request to [/user/<id>] for the same identifier then ends with
    [NoResultFound] when its method is not POST. *)
Theorem delete_user_route_removes_row
    (w : World) (k : Z) (r : Row) (rq : app.Request) :
  engine w !! k = Some r →
  app.method rq ≠ app.POST →
  ∃ w1 : World,
    app.delete_user_route k w = (app.Returns (app.redirect "/users"), w1) ∧
    engine w1 = delete k (engine w) ∧
    (app.user k rq w1).1 = app.Raises (app.CrudError NoResultFound).
Proof.
  intros Hk Hm. eexists. view.
  rewrite (delete_user_found _ _ _ Hk). cbn.
  split; [reflexivity|]. split; [reflexivity|].
  destruct (app.method rq); [| |done];
    by rewrite get_user_missing by (cbn; apply lookup_delete_eq).
Qed.

Lemma delete_user_route_removes_row_witness :
  engine (boot alice_db) !! 1 = Some (mkRow "alice" "a@x.com") ∧
  ∃ w1 : World,
    app.delete_user_route 1 (boot alice_db)
    = (app.Returns (app.redirect "/users"), w1) ∧
    engine w1 = delete 1 alice_db ∧
    (app.user 1 (app.mkRequest app.GET []) w1).1
    = app.Raises (app.CrudError NoResultFound).
Proof.
  assert (engine (boot alice_db) !! 1 = Some (mkRow "alice" "a@x.com"))
    as Hk by (vm_compute; reflexivity).
  split; [exact Hk|].
  refine (delete_user_route_removes_row (boot alice_db) 1 _
            (app.mkRequest app.GET []) Hk _).
  discriminate.
Defined.
